(** * PyCRAM: world dataclasses and the TMC (Toyota HSR) interface

  A shallow embedding of
  - [src/pycram/world_dataclasses.py]: [Color], [Point] and
    [AxisAlignedBoundingBox] with their list conversions;
  - [src/pycram/external_interfaces/tmc.py]: [init_tmc_interface],
    [tmc_gripper_control] and [tmc_talk].

  Python values are modelled as data, Python exceptions as an error
  result, and the ROS side effects (logging, sleeping, publishing,
  importing message modules) as fields of an explicit world state that
  every operation threads through. *)

From Stdlib Require Import ZArith List String Bool Lia.
From Stdlib Require Import Floats.SpecFloat.
Import ListNotations.

Local Open Scope string_scope.
Local Open Scope Z_scope.

(** ** Python values, exceptions and results *)

Module Py.

(** Numbers as Python has them: an [int] literal such as [1] and a
    [float] are different objects.  A [float] is a binary64 value. *)
Inductive num : Type :=
| Int (z : Z)
| Float (f : spec_float).

(** The exception classes that the embedded code raises or catches. *)
Inductive exn : Type :=
| ValueError (msg : string)
| IndexError (msg : string)
| ImportError (msg : string)
| ModuleNotFoundError (msg : string)
| TypeError (msg : string)
| SyntaxError (msg : string)
| NameError (msg : string).

Inductive result (A : Type) : Type :=
| Ok (a : A)
| Raise (e : exn).

Arguments Ok {A} a.
Arguments Raise {A} e.

Definition bind {A B : Type} (r : result A) (k : A -> result B) : result B :=
  match r with
  | Ok a => k a
  | Raise e => Raise e
  end.

(** [l[i]] for a literal, non-negative index [i]. *)
Definition getitem {A : Type} (l : list A) (i : nat) : result A :=
  match nth_error l i with
  | Some a => Ok a
  | None => Raise (IndexError "list index out of range")
  end.

(** [len(l)] *)
Definition len {A : Type} (l : list A) : Z := Z.of_nat (List.length l).

(** The message carried by an exception. *)
Definition message (e : exn) : string :=
  match e with
  | ValueError m | IndexError m | ImportError m
  | ModuleNotFoundError m | TypeError m | SyntaxError m | NameError m => m
  end.

Definition is_ValueError (e : exn) : bool :=
  match e with ValueError _ => true | _ => false end.

Definition is_ModuleNotFoundError (e : exn) : bool :=
  match e with ModuleNotFoundError _ => true | _ => false end.

End Py.

Declare Scope py_scope.
Delimit Scope py_scope with py.
Notation "x <- c1 ;; c2" := (Py.bind c1 (fun x => c2))
  (at level 61, c1 at next level, right associativity) : py_scope.
Local Open Scope py_scope.

(** ** world_dataclasses.py *)

Module Color.
Import Py.

(** [@dataclass class Color]: four fields, each defaulting to [1]. *)
Record t : Type := mk { R : num; G : num; B : num; A : num }.

Definition default : t := mk (Int 1) (Int 1) (Int 1) (Int 1).

(** [return cls(rgb[0], rgb[1], rgb[2], 1)] *)
Definition from_rgb (rgb : list num) : result t :=
  r <- getitem rgb 0 ;;
  g <- getitem rgb 1 ;;
  b <- getitem rgb 2 ;;
  Ok (mk r g b (Int 1)).

(** [return cls(rgba[0], rgba[1], rgba[2], rgba[3])] *)
Definition from_rgba (rgba : list num) : result t :=
  r <- getitem rgba 0 ;;
  g <- getitem rgba 1 ;;
  b <- getitem rgba 2 ;;
  a <- getitem rgba 3 ;;
  Ok (mk r g b a).

Definition from_list (color : list num) : result t :=
  if len color =? 3 then from_rgb color
  else if len color =? 4 then from_rgba color
  else Raise (ValueError "Color list must have 3 or 4 elements").

(** [return [self.R, self.G, self.B, self.A]] *)
Definition get_rgba (self : t) : list num :=
  [R self; G self; B self; A self].

End Color.

Module Point.
Import Py.

Record t : Type := mk { x : num; y : num; z : num }.

(** [return cls(point[0], point[1], point[2])] *)
Definition from_list (point : list num) : result t :=
  px <- getitem point 0 ;;
  py <- getitem point 1 ;;
  pz <- getitem point 2 ;;
  Ok (mk px py pz).

End Point.

Module AxisAlignedBoundingBox.
Import Py.

Record t : Type := mk {
  min_x : num; min_y : num; min_z : num;
  max_x : num; max_y : num; max_z : num
}.

Definition from_min_max (min_point max_point : list num) : result t :=
  x0 <- getitem min_point 0 ;;
  y0 <- getitem min_point 1 ;;
  z0 <- getitem min_point 2 ;;
  x1 <- getitem max_point 0 ;;
  y1 <- getitem max_point 1 ;;
  z1 <- getitem max_point 2 ;;
  Ok (mk x0 y0 z0 x1 y1 z1).

Definition get_min_point (self : t) : Point.t :=
  Point.mk (min_x self) (min_y self) (min_z self).

Definition get_max_point (self : t) : Point.t :=
  Point.mk (max_x self) (max_y self) (max_z self).

Definition get_min_max_points (self : t) : Point.t * Point.t :=
  (get_min_point self, get_max_point self).

Definition get_min (self : t) : list num :=
  [min_x self; min_y self; min_z self].

Definition get_max (self : t) : list num :=
  [max_x self; max_y self; max_z self].

Definition get_min_max (self : t) : list num * list num :=
  (get_min self, get_max self).

End AxisAlignedBoundingBox.

(** ** rospy and the message types, as far as tmc.py uses them *)

Module Ros.
Import Py.

(** Modelled from the spec: the message classes live in the packages
    [tmc_control_msgs] and [tmc_msgs], which are not among the sources.
    The goal message carries [goal.effort], a float; the speech message
    carries [language] (1 = English, 0 = Japanese) and [sentence]. *)
Record GripperApplyEffortActionGoal : Type :=
  mkGoal { goal_effort : num }.

Record Voice : Type :=
  mkVoice { language : num; sentence : string }.

(** [GripperApplyEffortActionGoal()] and [Voice()]: zero-initialised fields. *)
Definition new_GripperApplyEffortActionGoal : GripperApplyEffortActionGoal :=
  mkGoal (Float (S754_zero false)).

Definition new_Voice : Voice := mkVoice (Int 0) "".

Definition set_goal_effort (msg : GripperApplyEffortActionGoal) (v : num)
  : GripperApplyEffortActionGoal := mkGoal v.

Definition set_language (msg : Voice) (v : num) : Voice :=
  mkVoice v (sentence msg).

Definition set_sentence (msg : Voice) (v : string) : Voice :=
  mkVoice (language msg) v.

Inductive msg_class : Type :=
| GripperApplyEffortActionGoal_class
| Voice_class.

Inductive message : Type :=
| GoalMsg (m : GripperApplyEffortActionGoal)
| VoiceMsg (m : Voice).

Inductive level : Type := INFO | WARN.

Record publisher : Type :=
  mkPublisher { pub_topic : string; pub_class : msg_class; pub_queue_size : Z }.

(** The world a call runs in.  [is_init] is the module global of tmc.py;
    [importable] is the Python environment ([None]: the import statement
    succeeds, [Some e]: it raises [e]); the remaining fields record, in
    order, what the process has done so far. *)
Record World : Type := mkWorld {
  is_init : bool;
  importable : string -> option exn;
  import_log : list string;
  ros_log : list (level * string);
  slept : list Z;
  published : list (string * message)
}.

(** A computation reads and updates the world and either returns a value
    or raises; what it did before raising stays done. *)
Definition M (A : Type) : Type := World -> result A * World.

Definition ret {A : Type} (a : A) : M A := fun w => (Ok a, w).

Definition raise {A : Type} (e : exn) : M A := fun w => (Raise e, w).

Definition bind {A B : Type} (c : M A) (k : A -> M B) : M B :=
  fun w =>
    match c w with
    | (Ok a, w') => k a w'
    | (Raise e, w') => (Raise e, w')
    end.

(** [try: body  except <class> as e: handler] *)
Definition try_except {A : Type} (body : M A) (caught : exn -> bool)
    (handler : exn -> M A) : M A :=
  fun w =>
    match body w with
    | (Ok a, w') => (Ok a, w')
    | (Raise e, w') => if caught e then handler e w' else (Raise e, w')
    end.

Definition outcome {A : Type} (c : M A) (w : World) : result A := fst (c w).
Definition exec {A : Type} (c : M A) (w : World) : World := snd (c w).

Definition get_is_init : M bool := fun w => (Ok (is_init w), w).

Definition set_is_init (b : bool) : M unit := fun w =>
  (Ok tt, mkWorld b (importable w) (import_log w) (ros_log w) (slept w)
            (published w)).

(** [from module import name]: the attempt is recorded whether or not it
    succeeds. *)
Definition import_from (module name : string) : M unit := fun w =>
  let w' := mkWorld (is_init w) (importable w) (import_log w ++ [module])
              (ros_log w) (slept w) (published w) in
  match importable w module with
  | None => (Ok tt, w')
  | Some e => (Raise e, w')
  end.

Definition log (l : level) (text : string) : M unit := fun w =>
  (Ok tt, mkWorld (is_init w) (importable w) (import_log w)
            (ros_log w ++ [(l, text)]) (slept w) (published w)).

Definition loginfo : string -> M unit := log INFO.
Definition logwarn : string -> M unit := log WARN.

(** [rospy.sleep(seconds)] *)
Definition sleep (seconds : Z) : M unit := fun w =>
  (Ok tt, mkWorld (is_init w) (importable w) (import_log w) (ros_log w)
            (slept w ++ [seconds]) (published w)).

(** [rospy.Rate(hz)] builds a rate object and does nothing else. *)
Definition Rate (hz : Z) : M Z := ret hz.

(** A positional argument as it stands in the source text of a call:
    an expression, or nothing at all between two commas. *)
Inductive arg : Type :=
| Name (topic : string)
| Class (c : msg_class)
| Nothing.

Definition is_Nothing (a : arg) : bool :=
  match a with Nothing => true | _ => false end.

(** [rospy.Publisher(<positional>, queue_size=n)].  Python has no empty
    argument: a call written with one is rejected as a syntax error, so
    the code around it never runs. *)
Definition Publisher (positional : list arg) (queue_size : Z) : M publisher :=
  if existsb is_Nothing positional then raise (SyntaxError "invalid syntax")
  else
    match positional with
    | [Name topic; Class c] => ret (mkPublisher topic c queue_size)
    | _ => raise (TypeError "Publisher: bad arguments")
    end.

(** [pub.publish(msg)] *)
Definition publish (pub : publisher) (msg : message) : M unit := fun w =>
  (Ok tt, mkWorld (is_init w) (importable w) (import_log w) (ros_log w)
            (slept w) (published w ++ [(pub_topic pub, msg)])).

End Ros.

Declare Scope ros_scope.
Delimit Scope ros_scope with ros.
Notation "x <- c1 ;; c2" := (Ros.bind c1 (fun x => c2))
  (at level 61, c1 at next level, right associativity) : ros_scope.
Notation "c1 ;; c2" := (Ros.bind c1 (fun _ => c2))
  (at level 61, right associativity) : ros_scope.

(** ** external_interfaces/tmc.py *)

Module Tmc.
Import Py Ros.
Local Open Scope ros_scope.

(** Modelled from the spec: the enumeration [GripperState] (enums.py) and
    the designators [MoveGripperMotion] and [TalkMotion] are not among the
    sources.  The state enumeration is {OPEN, CLOSE}. *)
Inductive GripperState : Type := OPEN | CLOSE.

(** What the attribute [designator.motion] can hold at run time: a member
    of the enumeration, or any other object (named by its repr). *)
Inductive value : Type :=
| Member (s : GripperState)
| Other (repr : string).

Record MoveGripperMotion : Type := mkMoveGripperMotion { motion : value }.

Record TalkMotion : Type := mkTalkMotion { cmd : string }.

(** [a == b] where [b] is a member of the enumeration: members are equal
    only to themselves. *)
Definition eq_member (a : value) (b : GripperState) : bool :=
  match a, b with
  | Member OPEN, OPEN => true
  | Member CLOSE, CLOSE => true
  | _, _ => false
  end.

(** The float literal [0.8]: the binary64 number nearest to 8/10,
    that is 0x1999999999999A * 2^-53. *)
Definition float_0_8 : spec_float := S754_finite false 7205759403792794 (-53).

Definition tmc_control_msgs_msg : string := "tmc_control_msgs.msg".
Definition tmc_msgs_msg : string := "tmc_msgs.msg".

Definition default_gripper_topic : string :=
  "/hsrb/gripper_controller/grasp/goal".
Definition default_talk_topic : string := "/talk_request".

Definition init_tmc_interface : M unit :=
  init <- get_is_init ;;
  if init then ret tt
  else
    try_except
      (import_from tmc_control_msgs_msg "GripperApplyEffortActionGoal" ;;
       import_from tmc_msgs_msg "Voice" ;;
       set_is_init true ;;
       loginfo "Successfully initialized tmc interface")
      is_ModuleNotFoundError
      (fun e =>
         logwarn
           "Could not import TMC messages, tmc interface could not be initialized").

(** The names bound at module level in tmc.py: line 1 imports [rospy],
    line 3 assigns [is_init], lines 6, 19 and 44 define the three
    functions.  The imports of lines 11 and 12 stand inside
    [init_tmc_interface], which declares only [is_init] global, so they
    bind locals of that call; [GripperState] is imported nowhere. *)
Definition module_names : list string :=
  ["rospy"; "is_init"; "init_tmc_interface"; "tmc_gripper_control";
   "tmc_talk"].

(** Reading a name that is not a local of the running function: it is
    looked up among the names of the module. *)
Definition load_global (names : list string) (name : string) : M unit :=
  if existsb (String.eqb name) names then ret tt
  else raise (NameError ("name '" ++ name ++ "' is not defined")).

(** The body of [tmc_gripper_control], lines 25 to 41, run with [names]
    as the names of the module.  In [designator.motion ==
    GripperState.OPEN] the attribute is read first, then the name
    [GripperState]; [rospy] is bound by line 1 and its lookups are not
    written out. *)
Definition tmc_gripper_control_body (names : list string)
    (designator : MoveGripperMotion) (topic_name : string) : M unit :=
  let state := motion designator in
  load_global names "GripperState" ;;
  if eq_member state OPEN then
    load_global names "GripperApplyEffortActionGoal" ;;
    pub_gripper <- Publisher
      [Name topic_name; Class GripperApplyEffortActionGoal_class] 10 ;;
    rate <- Rate 10 ;;
    sleep 2 ;;
    load_global names "GripperApplyEffortActionGoal" ;;
    let msg := new_GripperApplyEffortActionGoal in
    let msg := set_goal_effort msg (Float float_0_8) in
    publish pub_gripper (GoalMsg msg)
  else
    load_global names "GripperState" ;;
    if eq_member state CLOSE then
      load_global names "GripperApplyEffortActionGoal" ;;
      pub_gripper <- Publisher
        [Name topic_name; Class GripperApplyEffortActionGoal_class] 10 ;;
      rate <- Rate 10 ;;
      sleep 2 ;;
      load_global names "GripperApplyEffortActionGoal" ;;
      let msg := new_GripperApplyEffortActionGoal in
      let msg := set_goal_effort msg (Float (SFopp float_0_8)) in
      publish pub_gripper (GoalMsg msg)
    else ret tt.

(** [tmc_gripper_control] as the module has it. *)
Definition tmc_gripper_control (designator : MoveGripperMotion)
    (topic_name : string) : M unit :=
  tmc_gripper_control_body module_names designator topic_name.

(** Line 50 of the source reads
    [rospy.Publisher(topic_name,, Voice, queue_size=10)]: there is nothing
    between the first two commas. *)
Definition tmc_talk (designator : TalkMotion) (topic_name : string) : M unit :=
  pub <- Publisher [Name topic_name; Nothing; Class Voice_class] 10 ;;
  let texttospeech := new_Voice in
  let texttospeech := set_language texttospeech (Int 1) in
  let texttospeech := set_sentence texttospeech (cmd designator) in
  sleep 1 ;;
  publish pub (VoiceMsg texttospeech).

(** The number of times the resolution of the message types has been
    started: executions of the first import statement. *)
Definition resolutions (w : World) : nat :=
  count_occ string_dec (import_log w) tmc_control_msgs_msg.

(** The message modules cannot be found: the first import statement that
    does not succeed raises [ModuleNotFoundError]. *)
Definition not_found (w : World) (module : string) : bool :=
  match importable w module with
  | Some e => is_ModuleNotFoundError e
  | None => false
  end.

Definition found (w : World) (module : string) : bool :=
  match importable w module with
  | Some _ => false
  | None => true
  end.

Definition tmc_unavailable (w : World) : bool :=
  not_found w tmc_control_msgs_msg
  || (found w tmc_control_msgs_msg && not_found w tmc_msgs_msg).

Definition tmc_available (w : World) : bool :=
  found w tmc_control_msgs_msg && found w tmc_msgs_msg.

(** The process as it starts: tmc.py sets [is_init = False], nothing has
    been imported, logged or published. *)
Definition start (env : string -> option exn) : World :=
  mkWorld false env [] [] [] [].

(** The worlds the process can be in: the start, and whatever a call of
    one of the three functions leaves behind (also when it raises). *)
Inductive reachable : World -> Prop :=
| reach_start env : reachable (start env)
| reach_init w : reachable w -> reachable (exec init_tmc_interface w)
| reach_gripper w d t :
    reachable w -> reachable (exec (tmc_gripper_control d t) w)
| reach_talk w d t : reachable w -> reachable (exec (tmc_talk d t) w).

(** An environment in which no module can be found. *)
Definition nothing_installed (module : string) : option exn :=
  Some (ModuleNotFoundError ("No module named " ++ module)).

(** An environment in which every import succeeds. *)
Definition all_installed (module : string) : option exn := None.

End Tmc.

(** ** Observations on a world

    What the statements about whole runs of the interface count: the
    success entries of the log. *)

Module Observe.
Import Py Ros Tmc.

Definition is_success_entry (entry : level * string) : bool :=
  match entry with
  | (INFO, text) => String.eqb text "Successfully initialized tmc interface"
  | (WARN, _) => false
  end.

Definition successes (w : World) : nat :=
  List.length (filter is_success_entry (ros_log w)).

End Observe.

(** ** Properties of the dataclasses *)

Section ListShapes.
Context {A : Type}.

(** A list of known length is a literal list of that many elements. *)
Lemma length_3_inv (l : list A) :
  List.length l = 3%nat -> exists a b c, l = [a; b; c].
Proof.
  destruct l as [|a [|b [|c [|d l]]]]; simpl; try discriminate.
  intros _. now exists a, b, c.
Qed.

Lemma length_4_inv (l : list A) :
  List.length l = 4%nat -> exists a b c d, l = [a; b; c; d].
Proof.
  destruct l as [|a [|b [|c [|d [|e l]]]]]; simpl; try discriminate.
  intros _. now exists a, b, c, d.
Qed.

Lemma len_eqb_iff (l : list A) (n : nat) :
  (Py.len l =? Z.of_nat n) = true <-> List.length l = n.
Proof.
  unfold Py.len. rewrite Z.eqb_eq. split; [apply Nat2Z.inj | congruence].
Qed.

End ListShapes.

Example Color_from_list_rgb_example :
  Color.from_list [Py.Int 0; Py.Int 1; Py.Int 0]
  = Py.Ok (Color.mk (Py.Int 0) (Py.Int 1) (Py.Int 0) (Py.Int 1)).
Proof. reflexivity. Qed.

Example Color_from_list_short_example :
  Color.from_list [Py.Int 0; Py.Int 1]
  = Py.Raise (Py.ValueError "Color list must have 3 or 4 elements").
Proof. reflexivity. Qed.

(** C5: for a list whose length is neither 3 nor 4, [Color.from_list]
    raises [ValueError] with the message "Color list must have 3 or 4
    elements", and so returns no [Color]. *)
Theorem Color_from_list_wrong_length (color : list Py.num) :
  List.length color <> 3%nat ->
  List.length color <> 4%nat ->
  Color.from_list color
    = Py.Raise (Py.ValueError "Color list must have 3 or 4 elements")
  /\ forall c, Color.from_list color <> Py.Ok c.
Proof.
  intros H3 H4.
  assert (E : Color.from_list color
              = Py.Raise (Py.ValueError "Color list must have 3 or 4 elements")).
  { unfold Color.from_list.
    destruct (Py.len color =? 3) eqn:E3.
    - apply (len_eqb_iff color 3) in E3. contradiction.
    - destruct (Py.len color =? 4) eqn:E4; [|reflexivity].
      apply (len_eqb_iff color 4) in E4. contradiction. }
  split; [exact E|].
  intros c Hc. rewrite E in Hc. discriminate.
Qed.

Lemma Color_from_list_wrong_length_witness :
  Color.from_list [Py.Float (S754_zero false); Py.Int 1]
    = Py.Raise (Py.ValueError "Color list must have 3 or 4 elements")
  /\ forall c,
       Color.from_list [Py.Float (S754_zero false); Py.Int 1] <> Py.Ok c.
Proof.
  apply (Color_from_list_wrong_length [Py.Float (S754_zero false); Py.Int 1]);
    simpl; lia.
Defined.

(** C6: on a list of three elements [Color.from_list] is
    [Color.from_rgb]: it returns the colour whose R, G, B are the three
    elements and whose alpha is 1. *)
Theorem Color_from_list_three (L : list Py.num) :
  List.length L = 3%nat ->
  Color.from_list L = Color.from_rgb L
  /\ exists c,
       Color.from_list L = Py.Ok c
       /\ Color.A c = Py.Int 1
       /\ L = [Color.R c; Color.G c; Color.B c].
Proof.
  intros H. destruct (length_3_inv L H) as (r & g & b & ->).
  split; [reflexivity|].
  exists (Color.mk r g b (Py.Int 1)). repeat split.
Qed.

Lemma Color_from_list_three_witness :
  let L := [Py.Float (S754_zero false); Py.Float (S754_zero false);
            Py.Float (S754_zero false)] in
  Color.from_list L = Color.from_rgb L
  /\ exists c,
       Color.from_list L = Py.Ok c
       /\ Color.A c = Py.Int 1
       /\ L = [Color.R c; Color.G c; Color.B c].
Proof.
  intros L. apply (Color_from_list_three L). reflexivity.
Defined.

(** C7: on a list of four elements [Color.from_list] is
    [Color.from_rgba]: it returns the colour whose R, G, B, A are
    [L[0]], [L[1]], [L[2]], [L[3]]. *)
Theorem Color_from_list_four (L : list Py.num) :
  List.length L = 4%nat ->
  Color.from_list L = Color.from_rgba L
  /\ exists c,
       Color.from_rgba L = Py.Ok c
       /\ nth_error L 0 = Some (Color.R c)
       /\ nth_error L 1 = Some (Color.G c)
       /\ nth_error L 2 = Some (Color.B c)
       /\ nth_error L 3 = Some (Color.A c).
Proof.
  intros H. destruct (length_4_inv L H) as (r & g & b & a & ->).
  split; [reflexivity|].
  exists (Color.mk r g b a). repeat split.
Qed.

Lemma Color_from_list_four_witness :
  let L := [Py.Int 1; Py.Int 0; Py.Float (S754_zero false); Py.Int 1] in
  Color.from_list L = Color.from_rgba L
  /\ exists c,
       Color.from_rgba L = Py.Ok c
       /\ nth_error L 0 = Some (Color.R c)
       /\ nth_error L 1 = Some (Color.G c)
       /\ nth_error L 2 = Some (Color.B c)
       /\ nth_error L 3 = Some (Color.A c).
Proof.
  intros L. apply (Color_from_list_four L). reflexivity.
Defined.

(** C10: for a list [L] of four elements, [Color.from_rgba(L).get_rgba()]
    is [L] again. *)
Theorem Color_get_rgba_from_rgba (L : list Py.num) :
  List.length L = 4%nat ->
  exists c, Color.from_rgba L = Py.Ok c /\ Color.get_rgba c = L.
Proof.
  intros H. destruct (length_4_inv L H) as (r & g & b & a & ->).
  exists (Color.mk r g b a). split; reflexivity.
Qed.

Lemma Color_get_rgba_from_rgba_witness :
  let L := [Py.Int 1; Py.Int 0; Py.Float (S754_zero false); Py.Int 1] in
  exists c, Color.from_rgba L = Py.Ok c /\ Color.get_rgba c = L.
Proof.
  intros L. apply (Color_get_rgba_from_rgba L). reflexivity.
Defined.

(** The converse direction: reading a colour out and building it again. *)
Lemma Color_from_rgba_get_rgba (c : Color.t) :
  Color.from_rgba (Color.get_rgba c) = Py.Ok c.
Proof. destruct c; reflexivity. Qed.

(** C8: for two lists of three elements, the box built by
    [from_min_max(p_min, p_max)] gives back, through
    [get_min_max_points()], the point of [p_min] and the point of
    [p_max]. *)
Theorem AxisAlignedBoundingBox_min_max_round_trip (p_min p_max : list Py.num) :
  List.length p_min = 3%nat ->
  List.length p_max = 3%nat ->
  exists box lo hi,
    AxisAlignedBoundingBox.from_min_max p_min p_max = Py.Ok box
    /\ Point.from_list p_min = Py.Ok lo
    /\ Point.from_list p_max = Py.Ok hi
    /\ AxisAlignedBoundingBox.get_min_max_points box = (lo, hi)
    /\ p_min = [Point.x lo; Point.y lo; Point.z lo]
    /\ p_max = [Point.x hi; Point.y hi; Point.z hi].
Proof.
  intros Hmin Hmax.
  destruct (length_3_inv p_min Hmin) as (a & b & c & ->).
  destruct (length_3_inv p_max Hmax) as (d & e & f & ->).
  exists (AxisAlignedBoundingBox.mk a b c d e f),
         (Point.mk a b c), (Point.mk d e f).
  repeat split.
Qed.

Lemma AxisAlignedBoundingBox_min_max_round_trip_witness :
  let p_min := [Py.Int 0; Py.Int 0; Py.Int 0] in
  let p_max := [Py.Int 1; Py.Int 2; Py.Int 3] in
  exists box lo hi,
    AxisAlignedBoundingBox.from_min_max p_min p_max = Py.Ok box
    /\ Point.from_list p_min = Py.Ok lo
    /\ Point.from_list p_max = Py.Ok hi
    /\ AxisAlignedBoundingBox.get_min_max_points box = (lo, hi)
    /\ p_min = [Point.x lo; Point.y lo; Point.z lo]
    /\ p_max = [Point.x hi; Point.y hi; Point.z hi].
Proof.
  intros p_min p_max.
  apply (AxisAlignedBoundingBox_min_max_round_trip p_min p_max); reflexivity.
Defined.

(** The raw-list accessors agree with the point accessors. *)
Lemma AxisAlignedBoundingBox_get_min_max_lists (p_min p_max : list Py.num) box :
  List.length p_min = 3%nat ->
  List.length p_max = 3%nat ->
  AxisAlignedBoundingBox.from_min_max p_min p_max = Py.Ok box ->
  AxisAlignedBoundingBox.get_min_max box = (p_min, p_max).
Proof.
  intros Hmin Hmax.
  destruct (length_3_inv p_min Hmin) as (a & b & c & ->).
  destruct (length_3_inv p_max Hmax) as (d & e & f & ->).
  cbn. intros [= <-]. reflexivity.
Qed.

(** ** Properties of the TMC interface *)

Section TmcInterface.
Import Py Ros Tmc.
Local Open Scope ros_scope.

(** The literal [0.8] is 8/10 rounded to binary64, and it is positive;
    [-0.8] is the same number with the sign bit set. *)
Lemma float_0_8_correctly_rounded :
  float_0_8 = SFdiv 53 1024 (S754_finite false 8 0) (S754_finite false 10 0)
  /\ valid_binary 53 1024 float_0_8 = true.
Proof. split; vm_compute; reflexivity. Qed.

Lemma float_0_8_negated :
  SFopp float_0_8 = S754_finite true 7205759403792794 (-53).
Proof. reflexivity. Qed.

Lemma eq_member_spec (a : value) (s : GripperState) :
  eq_member a s = true <-> a = Member s.
Proof.
  destruct a as [[|]|r], s; simpl; split; intros H;
    try reflexivity; try discriminate.
Qed.

(** *** init_tmc_interface, case by case *)

Lemma init_when_initialised (w : World) :
  is_init w = true -> init_tmc_interface w = (Ok tt, w).
Proof.
  intros H. unfold init_tmc_interface, bind, get_is_init.
  rewrite H. reflexivity.
Qed.

Lemma init_when_available (w : World) :
  is_init w = false ->
  tmc_available w = true ->
  init_tmc_interface w
  = (Ok tt,
     mkWorld true (importable w)
       ((import_log w ++ [tmc_control_msgs_msg]) ++ [tmc_msgs_msg])
       (ros_log w ++ [(INFO, "Successfully initialized tmc interface")])
       (slept w) (published w)).
Proof.
  intros Hinit Hav.
  unfold tmc_available, found in Hav.
  apply andb_true_iff in Hav as [H1 H2].
  destruct (importable w tmc_control_msgs_msg) eqn:E1; [discriminate|].
  destruct (importable w tmc_msgs_msg) eqn:E2; [discriminate|].
  unfold init_tmc_interface, bind, get_is_init, try_except, import_from.
  rewrite Hinit. cbn. rewrite E1. cbn. rewrite E2. reflexivity.
Qed.

Lemma init_when_unavailable (w : World) :
  is_init w = false ->
  tmc_unavailable w = true ->
  exists attempted,
    init_tmc_interface w
    = (Ok tt,
       mkWorld false (importable w) (import_log w ++ attempted)
         (ros_log w
          ++ [(WARN,
               "Could not import TMC messages, tmc interface could not be initialized")])
         (slept w) (published w))
    /\ count_occ string_dec attempted tmc_control_msgs_msg = 1%nat.
Proof.
  intros Hinit Hun.
  unfold tmc_unavailable, found, not_found in Hun.
  unfold init_tmc_interface, bind, get_is_init, try_except, import_from.
  rewrite Hinit. cbn.
  destruct (importable w tmc_control_msgs_msg) as [e1|] eqn:E1.
  - cbn in Hun. rewrite orb_false_r in Hun. rewrite Hun.
    unfold logwarn, log. cbn. rewrite Hinit.
    exists [tmc_control_msgs_msg]. split; reflexivity.
  - cbn in Hun. cbn.
    destruct (importable w tmc_msgs_msg) as [e2|] eqn:E2; [|discriminate].
    cbn. rewrite Hun. unfold logwarn, log. cbn. rewrite ?Hinit.
    exists [tmc_control_msgs_msg; tmc_msgs_msg].
    rewrite <- app_assoc. split; reflexivity.
Qed.

(** *** What the three functions leave alone *)

(** [GripperState] is not a name of the module: the comparison of line 25
    raises before anything is done, whatever the designator. *)
Lemma tmc_gripper_control_raises d t w :
  tmc_gripper_control d t w
  = (Raise (NameError "name 'GripperState' is not defined"), w).
Proof. reflexivity. Qed.

Lemma tmc_gripper_control_frame d t w :
  is_init (exec (tmc_gripper_control d t) w) = is_init w
  /\ importable (exec (tmc_gripper_control d t) w) = importable w.
Proof.
  unfold exec. rewrite tmc_gripper_control_raises. split; reflexivity.
Qed.

(** The same body in a module where [GripperState] is bound but the
    message class is not (it is a local of [init_tmc_interface]): the
    comparison succeeds and line 26, or 35, raises. *)
Lemma tmc_gripper_control_body_class_unbound names d s t w :
  existsb (String.eqb "GripperState") names = true ->
  existsb (String.eqb "GripperApplyEffortActionGoal") names = false ->
  motion d = Member s ->
  tmc_gripper_control_body names d t w
  = (Raise (NameError "name 'GripperApplyEffortActionGoal' is not defined"),
     w).
Proof.
  intros Hs Hc Hm.
  unfold tmc_gripper_control_body, bind, load_global.
  rewrite Hm, Hs, Hc. destruct s; reflexivity.
Qed.

(** The same body in a module where both names are bound: one goal
    message, of effort 0.8 for OPEN and -0.8 for CLOSE, after a sleep of
    2 seconds; any other state falls through both tests. *)
Lemma tmc_gripper_control_body_bound names d t w :
  existsb (String.eqb "GripperState") names = true ->
  existsb (String.eqb "GripperApplyEffortActionGoal") names = true ->
  tmc_gripper_control_body names d t w
  = match motion d with
    | Member s =>
        (Ok tt,
         mkWorld (is_init w) (importable w) (import_log w) (ros_log w)
           (slept w ++ [2])
           (published w
            ++ [(t, GoalMsg (mkGoal (Float match s with
                                           | OPEN => float_0_8
                                           | CLOSE => SFopp float_0_8
                                           end)))]))
    | Other _ => (Ok tt, w)
    end.
Proof.
  intros Hs Hc.
  unfold tmc_gripper_control_body, bind, load_global.
  rewrite Hs, Hc. destruct (motion d) as [[|]|r]; reflexivity.
Qed.

Lemma tmc_talk_raises d t w :
  tmc_talk d t w = (Raise (SyntaxError "invalid syntax"), w).
Proof. reflexivity. Qed.

Lemma init_tmc_interface_importable w :
  importable (exec init_tmc_interface w) = importable w.
Proof.
  unfold exec.
  destruct (is_init w) eqn:Hinit.
  - now rewrite init_when_initialised.
  - unfold init_tmc_interface, bind, get_is_init, try_except, import_from.
    rewrite Hinit. cbn.
    destruct (importable w tmc_control_msgs_msg) as [e1|]; cbn.
    + destruct (is_ModuleNotFoundError e1); reflexivity.
    + destruct (importable w tmc_msgs_msg) as [e2|]; cbn; [|reflexivity].
      destruct (is_ModuleNotFoundError e2); reflexivity.
Qed.

Lemma init_tmc_interface_sets_flag w :
  is_init (exec init_tmc_interface w) = true ->
  is_init w = true \/ tmc_available w = true.
Proof.
  unfold exec. intros H.
  destruct (is_init w) eqn:Hinit; [now left|right].
  revert H.
  unfold init_tmc_interface, bind, get_is_init, try_except, import_from,
    tmc_available, found.
  rewrite Hinit. cbn.
  destruct (importable w tmc_control_msgs_msg) as [e1|]; cbn.
  - destruct (is_ModuleNotFoundError e1); cbn; congruence.
  - destruct (importable w tmc_msgs_msg) as [e2|]; cbn; [|reflexivity].
    rewrite Hinit. destruct (is_ModuleNotFoundError e2); cbn; congruence.
Qed.

Lemma available_not_unavailable w :
  tmc_available w = true -> tmc_unavailable w = false.
Proof.
  unfold tmc_available, tmc_unavailable, found, not_found.
  destruct (importable w tmc_control_msgs_msg);
    destruct (importable w tmc_msgs_msg); cbn; congruence.
Qed.

(** The flag is true only in an environment where both imports succeed. *)
Lemma reachable_initialised_available w :
  reachable w -> is_init w = true -> tmc_available w = true.
Proof.
  induction 1 as [env|w Hw IH|w d t Hw IH|w d t Hw IH]; intros Hflag.
  - discriminate.
  - unfold tmc_available, found.
    rewrite init_tmc_interface_importable.
    destruct (init_tmc_interface_sets_flag w Hflag) as [H|H];
      [apply IH, H | exact H].
  - destruct (tmc_gripper_control_frame d t w) as [Hi Himp].
    unfold tmc_available, found. rewrite Himp.
    apply IH. now rewrite <- Hi.
  - unfold exec in *. rewrite tmc_talk_raises in *. cbn in *. now apply IH.
Qed.

(** *** The gripper command *)

(** C1: at a designator carrying OPEN, and at one carrying CLOSE, on the
    default topic, in a process where the interface has been initialised
    with every import succeeding, [tmc_gripper_control] as the source has
    it raises [NameError] at line 25 and publishes nothing; the claim
    asks for one goal message of effort 0.8, respectively -0.8. *)
Theorem tmc_gripper_control_open_close_publish_nothing :
  let w := exec init_tmc_interface (start all_installed) in
  is_init w = true
  /\ tmc_gripper_control (mkMoveGripperMotion (Member OPEN))
       default_gripper_topic w
     = (Raise (NameError "name 'GripperState' is not defined"), w)
  /\ tmc_gripper_control (mkMoveGripperMotion (Member CLOSE))
       default_gripper_topic w
     = (Raise (NameError "name 'GripperState' is not defined"), w)
  /\ published w = [].
Proof. repeat split. Qed.

(** C9: at a designator whose [motion] is [None], on the default topic,
    [tmc_gripper_control] as the source has it publishes nothing, as the
    claim says, but does not return: it raises [NameError] at line 25. *)
Theorem tmc_gripper_control_other_state_raises :
  let w := exec init_tmc_interface (start all_installed) in
  tmc_gripper_control (mkMoveGripperMotion (Other "None"))
    default_gripper_topic w
  = (Raise (NameError "name 'GripperState' is not defined"), w)
  /\ published
       (exec (tmc_gripper_control (mkMoveGripperMotion (Other "None"))
                default_gripper_topic) w)
     = [].
Proof. split; reflexivity. Qed.

(** *** The talk command *)

(** C2: at the designator with [cmd = "hello"], on the default topic, in a
    fresh process where every import succeeds, [tmc_talk] as the source
    has it stops at the call of line 50 and publishes nothing; the claim
    asks for one message with sentence "hello" and language 1. *)
Theorem tmc_talk_hello_publishes_nothing :
  tmc_talk (mkTalkMotion "hello") default_talk_topic (start all_installed)
  = (Raise (SyntaxError "invalid syntax"), start all_installed)
  /\ published
       (exec (tmc_talk (mkTalkMotion "hello") default_talk_topic)
          (start all_installed))
     = [].
Proof. split; reflexivity. Qed.

(** *** Initialisation *)

Example init_twice_available_example :
  let w := exec (init_tmc_interface ;; init_tmc_interface)
             (start all_installed) in
  is_init w = true /\ resolutions w = 1%nat
  /\ import_log w = ["tmc_control_msgs.msg"; "tmc_msgs.msg"].
Proof. repeat split. Qed.

(** C3, as stated, fails: in a fresh process where the message modules
    cannot be found, two calls in sequence both return normally and the
    resolution is attempted twice. *)
Lemma init_twice_resolves_twice :
  let w0 := start nothing_installed in
  let twice := init_tmc_interface ;; init_tmc_interface in
  outcome twice w0 = Ok tt
  /\ resolutions (exec twice w0) = (resolutions w0 + 2)%nat
  /\ ~ (resolutions (exec twice w0) <= resolutions w0 + 1)%nat.
Proof.
  cbv zeta. repeat split. vm_compute. lia.
Qed.

(** C3, amended: a call made when the flag is set performs no resolution
    and changes nothing; where the message modules can be imported, two
    calls in sequence return normally, leave the flag set and perform the
    resolution at most once; where they cannot be found and the flag is
    not set, the flag stays unset and each of the two calls attempts the
    resolution again. *)
Theorem init_tmc_interface_twice (w : World) :
  (is_init w = true -> init_tmc_interface w = (Ok tt, w))
  /\ (tmc_available w = true ->
      let w2 := exec (init_tmc_interface ;; init_tmc_interface) w in
      outcome (init_tmc_interface ;; init_tmc_interface) w = Ok tt
      /\ is_init w2 = true
      /\ (resolutions w2 <= resolutions w + 1)%nat
      /\ init_tmc_interface (exec init_tmc_interface w)
         = (Ok tt, exec init_tmc_interface w))
  /\ (is_init w = false -> tmc_unavailable w = true ->
      let w2 := exec (init_tmc_interface ;; init_tmc_interface) w in
      is_init w2 = false /\ resolutions w2 = (resolutions w + 2)%nat).
Proof.
  split; [apply init_when_initialised|]. split.
  - intros Hav. cbv zeta. unfold outcome, exec, bind.
    destruct (is_init w) eqn:Hinit.
    + rewrite (init_when_initialised w Hinit). cbn -[init_tmc_interface].
      rewrite (init_when_initialised w Hinit). cbn -[init_tmc_interface].
      repeat split; [exact Hinit | lia].
    + rewrite (init_when_available w Hinit Hav). cbn -[init_tmc_interface].
      rewrite init_when_initialised by reflexivity.
      cbn -[init_tmc_interface]. repeat split.
      unfold resolutions. cbn. rewrite !count_occ_app. cbn. lia.
  - intros Hinit Hun. cbv zeta. unfold exec, bind.
    destruct (init_when_unavailable w Hinit Hun) as (a1 & -> & Ha1).
    set (w1 := mkWorld _ _ _ _ _ _).
    destruct (init_when_unavailable w1 eq_refl Hun) as (a2 & -> & Ha2).
    cbn. split; [reflexivity|].
    unfold resolutions. cbn. rewrite !count_occ_app, Ha1, Ha2. lia.
Qed.

Lemma init_tmc_interface_twice_witness :
  let w := start all_installed in
  tmc_available w = true
  /\ (resolutions (exec (init_tmc_interface ;; init_tmc_interface) w)
      <= resolutions w + 1)%nat.
Proof.
  split; [reflexivity|].
  exact (proj1 (proj2 (proj2
    (proj1 (proj2 (init_tmc_interface_twice (start all_installed)))
       eq_refl)))).
Defined.

(** C4: in any world the process can be in, if the message modules
    cannot be found then [init_tmc_interface] returns normally, has
    logged one warning, and the flag is false afterwards (as it was
    before); nothing else changes but the record of attempted imports. *)
Theorem init_tmc_interface_soft_fail (w : World) :
  reachable w ->
  tmc_unavailable w = true ->
  outcome init_tmc_interface w = Ok tt
  /\ is_init (exec init_tmc_interface w) = false
  /\ ros_log (exec init_tmc_interface w)
     = (ros_log w
        ++ [(WARN,
             "Could not import TMC messages, tmc interface could not be initialized")])%list
  /\ published (exec init_tmc_interface w) = published w
  /\ slept (exec init_tmc_interface w) = slept w.
Proof.
  intros Hreach Hun.
  assert (Hinit : is_init w = false).
  { destruct (is_init w) eqn:E; [|reflexivity].
    apply (reachable_initialised_available w Hreach) in E.
    apply available_not_unavailable in E. congruence. }
  unfold outcome, exec.
  destruct (init_when_unavailable w Hinit Hun) as (a & -> & _).
  repeat split.
Qed.

Lemma init_tmc_interface_soft_fail_witness :
  let w := start nothing_installed in
  reachable w /\ tmc_unavailable w = true
  /\ init_tmc_interface w
     = (Ok tt,
        mkWorld false nothing_installed ["tmc_control_msgs.msg"]
          [(WARN,
            "Could not import TMC messages, tmc interface could not be initialized")]
          [] []).
Proof.
  cbv zeta.
  pose proof (init_tmc_interface_soft_fail (start nothing_installed)
                (reach_start nothing_installed) eq_refl) as H.
  split; [constructor|]. split; [reflexivity|].
  destruct H as (_ & _ & _ & _ & _). reflexivity.
Defined.

End TmcInterface.

(** ** Further properties of the dataclasses: bounds and round trips *)

Section DataclassEdges.
Import Py.

Lemma short_list_inv {A : Type} (l : list A) :
  (List.length l < 3)%nat ->
  l = [] \/ (exists a, l = [a]) \/ (exists a b, l = [a; b]).
Proof.
  destruct l as [|a [|b [|c l]]]; simpl; intros H.
  - now left.
  - right; left. now exists a.
  - right; right. now exists a, b.
  - lia.
Qed.

Lemma long_list_inv {A : Type} (l : list A) :
  (3 <= List.length l)%nat -> exists a b c rest, l = a :: b :: c :: rest.
Proof.
  destruct l as [|a [|b [|c l]]]; simpl; intros H; try lia.
  now exists a, b, c, l.
Qed.

(** X1: whatever the list, [Color.from_list] raises nothing but the
    [ValueError] of its last branch, and only on a length other than 3
    and 4: the index errors of [from_rgb] and [from_rgba] cannot come
    out of it. *)
Theorem Color_from_list_raises_only_ValueError (color : list num) (e : exn) :
  Color.from_list color = Raise e ->
  e = ValueError "Color list must have 3 or 4 elements"
  /\ List.length color <> 3%nat /\ List.length color <> 4%nat.
Proof.
  unfold Color.from_list.
  destruct (len color =? 3) eqn:E3.
  - apply (len_eqb_iff color 3) in E3.
    destruct (length_3_inv color E3) as (r & g & b & ->). discriminate.
  - destruct (len color =? 4) eqn:E4.
    + apply (len_eqb_iff color 4) in E4.
      destruct (length_4_inv color E4) as (r & g & b & a & ->). discriminate.
    + intros [= <-]. split; [reflexivity|]. split; intros H.
      * apply (len_eqb_iff color 3) in H.
        change (Z.of_nat 3) with 3 in H. congruence.
      * apply (len_eqb_iff color 4) in H.
        change (Z.of_nat 4) with 4 in H. congruence.
Qed.

Lemma Color_from_list_raises_only_ValueError_witness :
  ValueError "Color list must have 3 or 4 elements"
  = ValueError "Color list must have 3 or 4 elements"
  /\ List.length [Int 1; Int 0; Int 0; Int 1; Int 1] <> 3%nat
  /\ List.length [Int 1; Int 0; Int 0; Int 1; Int 1] <> 4%nat.
Proof.
  apply (Color_from_list_raises_only_ValueError
           [Int 1; Int 0; Int 0; Int 1; Int 1]).
  reflexivity.
Defined.

(** X2: [Color.from_rgb] on a list of fewer than three elements raises
    [IndexError]. *)
Theorem Color_from_rgb_short_list (rgb : list num) :
  (List.length rgb < 3)%nat ->
  Color.from_rgb rgb = Raise (IndexError "list index out of range").
Proof.
  intros H.
  destruct (short_list_inv rgb H) as [-> | [(a & ->) | (a & b & ->)]];
    reflexivity.
Qed.

Lemma Color_from_rgb_short_list_witness :
  Color.from_rgb [Int 1; Int 0]
  = Raise (IndexError "list index out of range").
Proof.
  apply (Color_from_rgb_short_list [Int 1; Int 0]). simpl. lia.
Defined.

(** X3: [Color.from_rgba] on a list of fewer than four elements raises
    [IndexError]; in particular it does not give an RGB list the default
    alpha. *)
Theorem Color_from_rgba_short_list (rgba : list num) :
  (List.length rgba < 4)%nat ->
  Color.from_rgba rgba = Raise (IndexError "list index out of range").
Proof.
  intros H.
  destruct rgba as [|r [|g [|b [|a rest]]]]; simpl in H; try lia; reflexivity.
Qed.

Lemma Color_from_rgba_short_list_witness :
  Color.from_rgba [Int 1; Int 0; Int 0]
  = Raise (IndexError "list index out of range").
Proof.
  apply (Color_from_rgba_short_list [Int 1; Int 0; Int 0]). simpl. lia.
Defined.

(** X4: [Color.from_rgb] reads the first three elements and nothing
    more: on any list of at least three elements it returns the colour
    of those three with alpha 1, so a fourth element is dropped. *)
Theorem Color_from_rgb_reads_three (rgb : list num) :
  (3 <= List.length rgb)%nat ->
  exists c,
    Color.from_rgb rgb = Ok c
    /\ firstn 3 rgb = [Color.R c; Color.G c; Color.B c]
    /\ Color.A c = Int 1.
Proof.
  intros H. destruct (long_list_inv rgb H) as (r & g & b & rest & ->).
  exists (Color.mk r g b (Int 1)). repeat split.
Qed.

Lemma Color_from_rgb_reads_three_witness :
  exists c,
    Color.from_rgb [Int 0; Int 0; Int 0; Int 0] = Ok c
    /\ firstn 3 [Int 0; Int 0; Int 0; Int 0]
       = [Color.R c; Color.G c; Color.B c]
    /\ Color.A c = Int 1.
Proof.
  apply (Color_from_rgb_reads_three [Int 0; Int 0; Int 0; Int 0]).
  simpl. lia.
Defined.

(** X5: for a list of three elements, [Color.from_rgb(L)] is
    [Color.from_rgba(L + [1])]. *)
Theorem Color_from_rgb_as_from_rgba (L : list num) :
  List.length L = 3%nat ->
  Color.from_rgb L = Color.from_rgba (L ++ [Int 1]).
Proof.
  intros H. destruct (length_3_inv L H) as (r & g & b & ->). reflexivity.
Qed.

Lemma Color_from_rgb_as_from_rgba_witness :
  Color.from_rgb [Int 0; Int 1; Int 0]
  = Color.from_rgba ([Int 0; Int 1; Int 0] ++ [Int 1]).
Proof.
  apply (Color_from_rgb_as_from_rgba [Int 0; Int 1; Int 0]). reflexivity.
Defined.

(** X6: [get_rgba] always gives four elements, and [Color.from_list]
    builds the same colour from them again. *)
Theorem Color_from_list_get_rgba (c : Color.t) :
  List.length (Color.get_rgba c) = 4%nat
  /\ Color.from_list (Color.get_rgba c) = Ok c.
Proof. destruct c. split; reflexivity. Qed.

(** X7: [Point.from_list] on a list of fewer than three elements raises
    [IndexError]. *)
Theorem Point_from_list_short_list (point : list num) :
  (List.length point < 3)%nat ->
  Point.from_list point = Raise (IndexError "list index out of range").
Proof.
  intros H.
  destruct (short_list_inv point H) as [-> | [(a & ->) | (a & b & ->)]];
    reflexivity.
Qed.

Lemma Point_from_list_short_list_witness :
  Point.from_list [] = Raise (IndexError "list index out of range").
Proof.
  apply (Point_from_list_short_list []). simpl. lia.
Defined.

(** X8: on a list of at least three elements [Point.from_list] returns
    the point of the first three; what follows them is ignored. *)
Theorem Point_from_list_reads_three (point : list num) :
  (3 <= List.length point)%nat ->
  exists p,
    Point.from_list point = Ok p
    /\ firstn 3 point = [Point.x p; Point.y p; Point.z p].
Proof.
  intros H. destruct (long_list_inv point H) as (a & b & c & rest & ->).
  exists (Point.mk a b c). split; reflexivity.
Qed.

Lemma Point_from_list_reads_three_witness :
  exists p,
    Point.from_list [Int 1; Int 2; Int 3] = Ok p
    /\ firstn 3 [Int 1; Int 2; Int 3] = [Point.x p; Point.y p; Point.z p].
Proof.
  apply (Point_from_list_reads_three [Int 1; Int 2; Int 3]). simpl. lia.
Defined.

(** X9: for two lists of three elements,
    [from_min_max(p_min, p_max).get_min_max()] is [(p_min, p_max)]. *)
Theorem AxisAlignedBoundingBox_get_min_max_round_trip
    (p_min p_max : list num) :
  List.length p_min = 3%nat ->
  List.length p_max = 3%nat ->
  exists box,
    AxisAlignedBoundingBox.from_min_max p_min p_max = Ok box
    /\ AxisAlignedBoundingBox.get_min_max box = (p_min, p_max)
    /\ AxisAlignedBoundingBox.get_min box = p_min
    /\ AxisAlignedBoundingBox.get_max box = p_max.
Proof.
  intros Hmin Hmax.
  destruct (length_3_inv p_min Hmin) as (a & b & c & ->).
  destruct (length_3_inv p_max Hmax) as (d & e & f & ->).
  exists (AxisAlignedBoundingBox.mk a b c d e f). repeat split.
Qed.

Lemma AxisAlignedBoundingBox_get_min_max_round_trip_witness :
  exists box,
    AxisAlignedBoundingBox.from_min_max
      [Int 0; Int 0; Int 0] [Int 1; Int 2; Int 3] = Ok box
    /\ AxisAlignedBoundingBox.get_min_max box
       = ([Int 0; Int 0; Int 0], [Int 1; Int 2; Int 3])
    /\ AxisAlignedBoundingBox.get_min box = [Int 0; Int 0; Int 0]
    /\ AxisAlignedBoundingBox.get_max box = [Int 1; Int 2; Int 3].
Proof.
  apply (AxisAlignedBoundingBox_get_min_max_round_trip
           [Int 0; Int 0; Int 0] [Int 1; Int 2; Int 3]); reflexivity.
Defined.

(** X10: a box is built again from its own [get_min()] and [get_max()]. *)
Theorem AxisAlignedBoundingBox_from_get_min_max
    (box : AxisAlignedBoundingBox.t) :
  AxisAlignedBoundingBox.from_min_max
    (fst (AxisAlignedBoundingBox.get_min_max box))
    (snd (AxisAlignedBoundingBox.get_min_max box))
  = Ok box.
Proof. destruct box. reflexivity. Qed.

(** X11: the point accessors and the list accessors of a box agree:
    [Point.from_list] of [get_min()] is [get_min_point()], likewise for
    the maximum, and so the two lists of [get_min_max()] are the two
    points of [get_min_max_points()]. *)
Theorem AxisAlignedBoundingBox_points_of_lists
    (box : AxisAlignedBoundingBox.t) :
  Point.from_list (AxisAlignedBoundingBox.get_min box)
  = Ok (AxisAlignedBoundingBox.get_min_point box)
  /\ Point.from_list (AxisAlignedBoundingBox.get_max box)
     = Ok (AxisAlignedBoundingBox.get_max_point box)
  /\ (Point.from_list (fst (AxisAlignedBoundingBox.get_min_max box)),
      Point.from_list (snd (AxisAlignedBoundingBox.get_min_max box)))
     = (Ok (fst (AxisAlignedBoundingBox.get_min_max_points box)),
        Ok (snd (AxisAlignedBoundingBox.get_min_max_points box))).
Proof. destruct box. repeat split. Qed.

(** X12: [from_min_max] raises [IndexError] as soon as one of the two
    lists has fewer than three elements. *)
Theorem AxisAlignedBoundingBox_from_min_max_short_list
    (min_point max_point : list num) :
  (List.length min_point < 3)%nat \/ (List.length max_point < 3)%nat ->
  AxisAlignedBoundingBox.from_min_max min_point max_point
  = Raise (IndexError "list index out of range").
Proof.
  intros [H | H].
  - destruct (short_list_inv min_point H)
      as [-> | [(a & ->) | (a & b & ->)]]; reflexivity.
  - destruct (short_list_inv max_point H)
      as [-> | [(a & ->) | (a & b & ->)]];
      destruct min_point as [|x0 [|y0 [|z0 rest]]]; reflexivity.
Qed.

Lemma AxisAlignedBoundingBox_from_min_max_short_list_witness :
  AxisAlignedBoundingBox.from_min_max [Int 0; Int 0; Int 0] [Int 1; Int 1]
  = Raise (IndexError "list index out of range").
Proof.
  apply (AxisAlignedBoundingBox_from_min_max_short_list
           [Int 0; Int 0; Int 0] [Int 1; Int 1]).
  right. simpl. lia.
Defined.

(** X13: [from_min_max] reads three elements of each list and ignores
    the rest: on longer lists the box gives back only the first three of
    each. *)
Theorem AxisAlignedBoundingBox_from_min_max_reads_three
    (min_point max_point : list num) :
  (3 <= List.length min_point)%nat ->
  (3 <= List.length max_point)%nat ->
  exists box,
    AxisAlignedBoundingBox.from_min_max min_point max_point = Ok box
    /\ AxisAlignedBoundingBox.get_min_max box
       = (firstn 3 min_point, firstn 3 max_point).
Proof.
  intros Hmin Hmax.
  destruct (long_list_inv min_point Hmin) as (a & b & c & r1 & ->).
  destruct (long_list_inv max_point Hmax) as (d & e & f & r2 & ->).
  exists (AxisAlignedBoundingBox.mk a b c d e f). split; reflexivity.
Qed.

Lemma AxisAlignedBoundingBox_from_min_max_reads_three_witness :
  exists box,
    AxisAlignedBoundingBox.from_min_max
      [Int 0; Int 0; Int 0; Int 9] [Int 1; Int 2; Int 3] = Ok box
    /\ AxisAlignedBoundingBox.get_min_max box
       = (firstn 3 [Int 0; Int 0; Int 0; Int 9],
          firstn 3 [Int 1; Int 2; Int 3]).
Proof.
  apply (AxisAlignedBoundingBox_from_min_max_reads_three
           [Int 0; Int 0; Int 0; Int 9] [Int 1; Int 2; Int 3]);
    simpl; lia.
Defined.

(** X14: [from_min_max] does not order its arguments: given the two
    lists the other way round it builds the box whose minimum point is
    the former maximum and whose maximum point is the former minimum. *)
Theorem AxisAlignedBoundingBox_from_min_max_swapped
    (p q : list num) (box : AxisAlignedBoundingBox.t) :
  AxisAlignedBoundingBox.from_min_max p q = Ok box ->
  exists box',
    AxisAlignedBoundingBox.from_min_max q p = Ok box'
    /\ AxisAlignedBoundingBox.get_min_max_points box'
       = (AxisAlignedBoundingBox.get_max_point box,
          AxisAlignedBoundingBox.get_min_point box).
Proof.
  destruct p as [|a [|b [|c r1]]]; try discriminate;
    destruct q as [|d [|e [|f r2]]]; try discriminate.
  cbn. intros [= <-].
  exists (AxisAlignedBoundingBox.mk d e f a b c). split; reflexivity.
Qed.

Lemma AxisAlignedBoundingBox_from_min_max_swapped_witness :
  exists box',
    AxisAlignedBoundingBox.from_min_max
      [Int 1; Int 2; Int 3] [Int 0; Int 0; Int 0] = Ok box'
    /\ AxisAlignedBoundingBox.get_min_max_points box'
       = (Point.mk (Int 1) (Int 2) (Int 3), Point.mk (Int 0) (Int 0) (Int 0)).
Proof.
  apply (AxisAlignedBoundingBox_from_min_max_swapped
           [Int 0; Int 0; Int 0] [Int 1; Int 2; Int 3]
           (AxisAlignedBoundingBox.mk (Int 0) (Int 0) (Int 0)
              (Int 1) (Int 2) (Int 3))).
  reflexivity.
Defined.

End DataclassEdges.

(** ** Further properties of the TMC interface: errors, frames, invariants *)

Section TmcRuns.
Import Py Ros Tmc Observe.
Local Open Scope ros_scope.

(** Every way a call of [init_tmc_interface] can go. *)
Lemma init_tmc_interface_cases (w : World) :
  (is_init w = true /\ init_tmc_interface w = (Ok tt, w))
  \/ (is_init w = false /\ tmc_available w = true
      /\ exists attempted,
           init_tmc_interface w
           = (Ok tt,
              mkWorld true (importable w) (import_log w ++ attempted)
                (ros_log w
                 ++ [(INFO, "Successfully initialized tmc interface")])
                (slept w) (published w)))
  \/ (is_init w = false
      /\ exists attempted,
           init_tmc_interface w
           = (Ok tt,
              mkWorld false (importable w) (import_log w ++ attempted)
                (ros_log w
                 ++ [(WARN,
                      "Could not import TMC messages, tmc interface could not be initialized")])
                (slept w) (published w)))
  \/ (is_init w = false
      /\ exists attempted e,
           is_ModuleNotFoundError e = false
           /\ init_tmc_interface w
              = (Raise e,
                 mkWorld false (importable w) (import_log w ++ attempted)
                   (ros_log w) (slept w) (published w))).
Proof.
  destruct (is_init w) eqn:Hinit.
  { left. split; [reflexivity|]. now apply init_when_initialised. }
  right.
  destruct (tmc_available w) eqn:Hav.
  { left. split; [reflexivity|]. split; [reflexivity|].
    exists [tmc_control_msgs_msg; tmc_msgs_msg].
    rewrite (init_when_available w Hinit Hav), <- app_assoc. reflexivity. }
  right.
  destruct (tmc_unavailable w) eqn:Hun.
  { left. split; [reflexivity|].
    destruct (init_when_unavailable w Hinit Hun) as (a & -> & _).
    now exists a. }
  right. split; [reflexivity|].
  revert Hav Hun. unfold tmc_available, tmc_unavailable, found, not_found.
  unfold init_tmc_interface, bind, get_is_init, try_except, import_from.
  rewrite Hinit. cbn.
  destruct (importable w tmc_control_msgs_msg) as [e1|]; cbn.
  - rewrite orb_false_r. intros _ He. rewrite He.
    exists [tmc_control_msgs_msg], e1. rewrite Hinit. now split.
  - destruct (importable w tmc_msgs_msg) as [e2|]; cbn; [|discriminate].
    intros _ He. rewrite He.
    exists [tmc_control_msgs_msg; tmc_msgs_msg], e2.
    rewrite Hinit, <- app_assoc. now split.
Qed.

(** X15: an import in [init_tmc_interface] that fails with anything but
    [ModuleNotFoundError] is not caught: the exception reaches the
    caller, nothing is logged and the flag stays false. *)
Theorem init_tmc_interface_other_error_propagates (w : World) (e : exn) :
  is_init w = false ->
  importable w tmc_control_msgs_msg = Some e
  \/ (importable w tmc_control_msgs_msg = None
      /\ importable w tmc_msgs_msg = Some e) ->
  is_ModuleNotFoundError e = false ->
  outcome init_tmc_interface w = Raise e
  /\ is_init (exec init_tmc_interface w) = false
  /\ ros_log (exec init_tmc_interface w) = ros_log w
  /\ published (exec init_tmc_interface w) = published w.
Proof.
  intros Hinit Himp He.
  unfold outcome, exec, init_tmc_interface, bind, get_is_init, try_except,
    import_from.
  rewrite Hinit. cbn.
  destruct Himp as [H1 | [H1 H2]].
  - rewrite H1. cbn. rewrite He. cbn. now rewrite Hinit.
  - rewrite H1. cbn. rewrite H2. cbn. rewrite He. cbn. now rewrite Hinit.
Qed.

Lemma init_tmc_interface_other_error_propagates_witness :
  let w := start (fun _ => Some (ImportError "cannot import name 'Voice'")) in
  outcome init_tmc_interface w
  = Raise (ImportError "cannot import name 'Voice'")
  /\ is_init (exec init_tmc_interface w) = false
  /\ ros_log (exec init_tmc_interface w) = ros_log w
  /\ published (exec init_tmc_interface w) = published w.
Proof.
  intros w.
  apply (init_tmc_interface_other_error_propagates w
           (ImportError "cannot import name 'Voice'") eq_refl
           (or_introl eq_refl) eq_refl).
Defined.

(** X16: no function of the module resets the flag: once [is_init] is
    true it is true after any call of the three functions. *)
Theorem is_init_stays_true (w : World) :
  is_init w = true ->
  is_init (exec init_tmc_interface w) = true
  /\ (forall d t, is_init (exec (tmc_gripper_control d t) w) = true)
  /\ (forall d t, is_init (exec (tmc_talk d t) w) = true).
Proof.
  intros H. split; [|split].
  - unfold exec. now rewrite init_when_initialised.
  - intros d t. destruct (tmc_gripper_control_frame d t w) as [-> _]. exact H.
  - intros d t. unfold exec. now rewrite tmc_talk_raises.
Qed.

Lemma is_init_stays_true_witness :
  let w := exec init_tmc_interface (start all_installed) in
  is_init w = true
  /\ is_init (exec init_tmc_interface w) = true
  /\ (forall d t, is_init (exec (tmc_gripper_control d t) w) = true)
  /\ (forall d t, is_init (exec (tmc_talk d t) w) = true).
Proof.
  intros w. split; [reflexivity|].
  apply (is_init_stays_true w). reflexivity.
Defined.

(** X17: in every world the process can be in, the success entry is in
    the log once if the flag is set and not at all otherwise: the
    interface is initialised at most once in the life of the process. *)
Theorem reachable_success_logged_once (w : World) :
  reachable w ->
  successes w = if is_init w then 1%nat else 0%nat.
Proof.
  induction 1 as [env|w Hw IH|w d t Hw IH|w d t Hw IH].
  - reflexivity.
  - unfold exec, successes in *.
    destruct (init_tmc_interface_cases w)
      as [[Hi ->] | [(Hi & _ & a & ->) | [(Hi & a & ->) | (Hi & a & e & _ & ->)]]];
      cbn [snd ros_log is_init]; rewrite Hi in IH.
    + rewrite Hi. exact IH.
    + rewrite filter_app, length_app, IH. reflexivity.
    + rewrite filter_app, length_app, IH. reflexivity.
    + exact IH.
  - unfold exec. rewrite tmc_gripper_control_raises. exact IH.
  - unfold exec. rewrite tmc_talk_raises. exact IH.
Qed.

Lemma reachable_success_logged_once_witness :
  let w := exec init_tmc_interface
             (exec init_tmc_interface (start all_installed)) in
  reachable w /\ successes w = 1%nat.
Proof.
  intros w.
  assert (R : reachable w) by (do 2 apply reach_init; apply reach_start).
  split; [exact R|].
  exact (reachable_success_logged_once w R).
Defined.

(** X18: in every world the process can be in, nothing has been
    published and no sleep has been taken: as the module stands, no
    sequence of calls of its three functions publishes a message. *)
Theorem reachable_nothing_published (w : World) :
  reachable w ->
  published w = [] /\ slept w = [].
Proof.
  induction 1 as [env|w Hw IH|w d t Hw IH|w d t Hw IH].
  - split; reflexivity.
  - unfold exec.
    destruct (init_tmc_interface_cases w)
      as [[Hi ->] | [(Hi & _ & a & ->) | [(Hi & a & ->) | (Hi & a & e & _ & ->)]]];
      exact IH.
  - unfold exec. rewrite tmc_gripper_control_raises. exact IH.
  - unfold exec. rewrite tmc_talk_raises. exact IH.
Qed.

Lemma reachable_nothing_published_witness :
  let w := exec (tmc_talk (mkTalkMotion "hello") default_talk_topic)
             (exec (tmc_gripper_control (mkMoveGripperMotion (Member OPEN))
                      default_gripper_topic)
                (exec init_tmc_interface (start all_installed))) in
  reachable w /\ published w = [] /\ slept w = [].
Proof.
  intros w.
  assert (R : reachable w)
    by (apply reach_talk, reach_gripper, reach_init, reach_start).
  split; [exact R|].
  exact (reachable_nothing_published w R).
Defined.

(** X20: [init_tmc_interface] never publishes and never sleeps, however
    it ends. *)
Theorem init_tmc_interface_publishes_nothing (w : World) :
  published (exec init_tmc_interface w) = published w
  /\ slept (exec init_tmc_interface w) = slept w.
Proof.
  unfold exec.
  destruct (init_tmc_interface_cases w)
    as [[Hi ->] | [(Hi & _ & a & ->) | [(Hi & a & ->) | (Hi & a & e & _ & ->)]]];
    split; reflexivity.
Qed.

(** X21: [tmc_gripper_control] neither reads nor writes the flag: it
    imports nothing, logs nothing, leaves [is_init] as it is, and what
    it publishes does not depend on whether the interface was
    initialised. *)
Theorem tmc_gripper_control_ignores_flag d t (w : World) (flag : bool) :
  let w' := mkWorld flag (importable w) (import_log w) (ros_log w)
              (slept w) (published w) in
  is_init (exec (tmc_gripper_control d t) w) = is_init w
  /\ import_log (exec (tmc_gripper_control d t) w) = import_log w
  /\ ros_log (exec (tmc_gripper_control d t) w) = ros_log w
  /\ published (exec (tmc_gripper_control d t) w')
     = published (exec (tmc_gripper_control d t) w)
  /\ outcome (tmc_gripper_control d t) w' = outcome (tmc_gripper_control d t) w.
Proof.
  cbv zeta. unfold exec, outcome.
  rewrite !tmc_gripper_control_raises. repeat split.
Qed.

(** X23: in every world the process can be in, the flag is set only if
    both message modules can be imported: where one of them cannot, no
    sequence of calls ever sets [is_init]. *)
Theorem reachable_flag_needs_packages (w : World) :
  reachable w ->
  tmc_available w = false ->
  is_init w = false.
Proof.
  intros Hreach Hav.
  destruct (is_init w) eqn:Hinit; [|reflexivity].
  rewrite (reachable_initialised_available w Hreach Hinit) in Hav.
  discriminate.
Qed.

Lemma reachable_flag_needs_packages_witness :
  let w := exec init_tmc_interface
             (exec init_tmc_interface (start nothing_installed)) in
  reachable w /\ tmc_available w = false /\ is_init w = false.
Proof.
  intros w.
  assert (R : reachable w) by (do 2 apply reach_init; apply reach_start).
  split; [exact R|]. split; [reflexivity|].
  exact (reachable_flag_needs_packages w R eq_refl).
Defined.

End TmcRuns.
